(** * ixmp.reporting: the Reporter graph registry

    A shallow embedding of [ixmp/reporting/__init__.py].  The Reporter keeps a
    Python dict [self.graph] from hashable labels (strings, [Key] objects) to
    computations in the dask graph format.  [Key] objects are mutable Python
    objects: they live in an object store and are passed by reference, so the
    registry and the caller may hold the same [Key]. *)

From Stdlib Require Import ZArith String Ascii List Bool Lia.
From stdpp Require Import base decidable option list strings.

Local Open Scope string_scope.
Local Open Scope list_scope.

(** ** Key objects ([ixmp.reporting.utils.Key]) *)

(** A Key instance: the fields [_name] and [_dims]. *)
Record Key := mkKey { k_name : string; k_dims : list string }.

#[global] Instance Key_eq_dec : EqDecision Key.
Proof. solve_decision. Defined.

(** The object store: a [Key] reference is an index into it. *)
Abbreviation heap := (list Key).

(** Python [str.partition]-like split at the first occurrence of [c]:
    [None] when [c] does not occur. *)
Fixpoint split_first (c : ascii) (s : string) : option (string * string) :=
  match s with
  | EmptyString => None
  | String a s' =>
      if Ascii.eqb a c then Some (EmptyString, s')
      else match split_first c s' with
           | Some (l, r) => Some (String a l, r)
           | None => None
           end
  end.

(** Python [str.split(c)]: the pieces between occurrences of [c]. *)
Fixpoint split (c : ascii) (s : string) : list string :=
  match s with
  | EmptyString => [EmptyString]
  | String a s' =>
      if Ascii.eqb a c then EmptyString :: split c s'
      else match split c s' with
           | p :: ps => String a p :: ps
           | [] => [String a EmptyString]
           end
  end.

(** Modelled from the spec: [Key.parse] of [ixmp/reporting/utils.py], which is
    not among the sources.  It splits on the first [:]; if absent the
    dimensions are empty; the dimension part splits on [-]. *)
Definition parse (s : string) : Key :=
  match split_first ":" s with
  | Some (n, d) => mkKey n (split "-" d)
  | None => mkKey s []
  end.

(** ** Labels and their dict identity *)

(** The hashable values used as registry labels: a string, or a reference to
    a [Key] object. *)
Inductive label :=
| LStr (s : string)
| LKey (r : nat).

#[global] Instance label_eq_dec : EqDecision label.
Proof. solve_decision. Defined.

(** What a label denotes in a given store. *)
Inductive lval :=
| VStr (s : string)
| VKey (k : Key)
| VDangling (r : nat).

Definition val (h : heap) (l : label) : lval :=
  match l with
  | LStr s => VStr s
  | LKey r => match h !! r with
              | Some k => VKey k
              | None => VDangling r
              end
  end.

(** Modelled from the spec: [Key.__eq__] and [Key.__hash__] of
    [ixmp/reporting/utils.py], which is not among the sources.  Equality and
    hash are based on [(name, frozenset(dims))]: the order of the dimensions
    and their repetitions do not count. *)
Definition key_equiv (k1 k2 : Key) : Prop :=
  k_name k1 = k_name k2 /\ k_dims k1 ⊆ k_dims k2 /\ k_dims k2 ⊆ k_dims k1.

(** Equality of two label values, as [dict] sees it. *)
Definition lval_equiv (a b : lval) : Prop :=
  match a, b with
  | VStr s1, VStr s2 => s1 = s2
  | VKey k1, VKey k2 => key_equiv k1 k2
  | VDangling r1, VDangling r2 => r1 = r2
  | _, _ => False
  end.

#[global] Instance key_equiv_dec k1 k2 : Decision (key_equiv k1 k2).
Proof. unfold key_equiv. apply _. Defined.

#[global] Instance lval_equiv_dec a b : Decision (lval_equiv a b).
Proof. destruct a, b; simpl; apply _. Defined.

(** ** Python objects and the graph dict *)

(** The Python values that occur as computations, arguments and results.
    [OLab] wraps the hashable values that the model admits as labels; a
    callable is named and interpreted by the runtime. *)
#[warnings="-register-all"]
Inductive obj :=
| OInt (z : Z)
| OLab (l : label)
| OFun (f : string)
| OScenario (n : nat)
| OTuple (xs : list obj)
| OList (xs : list obj).

(** Python [callable(o)]. *)
Definition callable (o : obj) : bool :=
  match o with
  | OFun _ => true
  | _ => false
  end.

(** An entry of a Python [dict]: the hash taken when the key was inserted
    (modelled without collisions, as the value the key had then), the key
    object and the bound value. *)
Record entry := mkEntry { e_hash : lval; e_key : label; e_val : obj }.

Definition dict := list entry.

(** Whether a lookup of [k] stops at entry [e]: the stored hash is the hash
    of [k] now, and the stored key is (or equals) [k] now. *)
Definition hit (h : heap) (k : label) (e : entry) : bool :=
  bool_decide (lval_equiv (e_hash e) (val h k))
  && bool_decide (lval_equiv (val h (e_key e)) (val h k)).

(** [d[k]], with [None] for Python's [KeyError]. *)
Fixpoint dict_get (h : heap) (d : dict) (k : label) : option obj :=
  match d with
  | [] => None
  | e :: d' => if hit h k e then Some (e_val e) else dict_get h d' k
  end.

(** [k in d]. *)
Definition dict_mem (h : heap) (d : dict) (k : label) : bool :=
  match dict_get h d k with
  | Some _ => true
  | None => false
  end.

(** [d[k] = v]: the value of the entry found is replaced (its key object and
    hash stay); a new entry is appended when there is none. *)
Fixpoint dict_set (h : heap) (d : dict) (k : label) (v : obj) : dict :=
  match d with
  | [] => [mkEntry (val h k) k v]
  | e :: d' =>
      if hit h k e then mkEntry (e_hash e) (e_key e) v :: d'
      else e :: dict_set h d' k v
  end.

(** ** Exceptions and the state of a session *)

(** The exceptions the module raises, with their argument. *)
Inductive exn :=
| KeyError (a : obj)
| ValueError (a : obj).

Inductive outcome (A : Type) :=
| Ok (a : A)
| Raise (e : exn).
Arguments Ok {A} a.
Arguments Raise {A} e.

(** The state a method call acts on: the object store, and the Reporter's
    [self.graph]. *)
Record world := mkWorld { w_heap : heap; graph : dict }.

(** Methods are state transformers that return normally or raise. *)
Definition M (A : Type) : Type := world -> outcome A * world.

Definition ret {A} (a : A) : M A := fun w => (Ok a, w).

Definition raise {A} (e : exn) : M A := fun w => (Raise e, w).

Definition lift {A} (o : outcome A) : M A := fun w => (o, w).

Definition bind {A B} (m : M A) (f : A -> M B) : M B :=
  fun w => match m w with
           | (Ok a, w') => f a w'
           | (Raise e, w') => (Raise e, w')
           end.

Notation "x <- m ;; k" := (bind m (fun x => k))
  (at level 100, m at next level, right associativity).
Notation "m ;;; k" := (bind m (fun _ => k))
  (at level 100, right associativity).

(** [self.graph[k] = v] *)
Definition graph_set (k : label) (v : obj) : M unit :=
  fun w => (Ok tt, mkWorld (w_heap w) (dict_set (w_heap w) (graph w) k v)).

(** [k in self.graph] *)
Definition graph_mem (k : label) : M bool :=
  fun w => (Ok (dict_mem (w_heap w) (graph w) k), w).

(** Construction of a new [Key] object; its reference is returned. *)
Definition new_key (k : Key) : M nat :=
  fun w => (Ok (length (w_heap w)), mkWorld (w_heap w ++ [k]) (graph w)).

(** [key._dims.append(d)] on the object at [r]. *)
Definition dims_append (r : nat) (d : string) : M unit :=
  fun w => (Ok tt,
            mkWorld (alter (fun k => mkKey (k_name k) (k_dims k ++ [d])) r (w_heap w))
                    (graph w)).

(** Modelled from the spec: [Key.from_str_or_key] of
    [ixmp/reporting/utils.py], which is not among the sources.  A [Key] is
    passed through (the same object is returned); a string is parsed into a
    new [Key]. *)
Definition from_str_or_key (var : label) : M nat :=
  match var with
  | LKey r => ret r
  | LStr s => new_key (parse s)
  end.

(** ** The runtime: the computation library and the callables *)

(** [computations] is the attribute lookup on the module
    [ixmp.reporting.computations] ([None] for [AttributeError]); [call]
    applies a callable to its arguments.  Neither is among the sources: the
    development is parametric in both. *)
Class Runtime := {
  computations : string -> option obj;
  call : string -> list obj -> outcome obj
}.

(** ** The executor behind [Reporter.get] *)

(** [get] hands [self.graph] to the scheduler of the dask library; the source
    cites the dask graph format and the docstring of [add] repeats it: a
    computation is an existing key of the graph, any other literal, a task (a
    tuple that starts with a callable) or a list of these.  [execute] is the
    value such a computation has in that format, with [n] bounding the depth
    of the evaluation: [None] means that [n] did not suffice. *)
Fixpoint exec_all (ev : obj -> option (outcome obj)) (xs : list obj)
  : option (outcome (list obj)) :=
  match xs with
  | [] => Some (Ok [])
  | x :: xs' =>
      match ev x with
      | None => None
      | Some (Raise e) => Some (Raise e)
      | Some (Ok v) =>
          match exec_all ev xs' with
          | None => None
          | Some (Raise e) => Some (Raise e)
          | Some (Ok vs) => Some (Ok (v :: vs))
          end
      end
  end.

Fixpoint execute `{Runtime} (n : nat) (w : world) (c : obj)
  : option (outcome obj) :=
  match n with
  | O => None
  | S n' =>
      match c with
      | OList xs =>
          match exec_all (execute n' w) xs with
          | None => None
          | Some (Raise e) => Some (Raise e)
          | Some (Ok vs) => Some (Ok (OList vs))
          end
      | OTuple (OFun f :: args) =>
          match exec_all (execute n' w) args with
          | None => None
          | Some (Raise e) => Some (Raise e)
          | Some (Ok vs) => Some (call f vs)
          end
      | OLab l =>
          match dict_get (w_heap w) (graph w) l with
          | Some c' => execute n' w c'
          | None => Some (Ok c)
          end
      | _ => Some (Ok c)
      end
  end.

(** A computation that stands for itself in the graph of [w]: not a list,
    not a task and not a key of the graph. *)
Definition literal (w : world) (c : obj) : bool :=
  match c with
  | OList _ => false
  | OTuple (OFun _ :: _) => false
  | OLab l => negb (dict_mem (w_heap w) (graph w) l)
  | _ => true
  end.

(** ** The Reporter *)

Module Reporter.

(** [Reporter.__init__]: an empty graph. *)
Definition init (h : heap) : world := mkWorld h [].

(** [Reporter.add(key, computation, strict=False)] *)
Definition add (key : label) (computation : obj) (strict : bool) : M unit :=
  present <- (if strict then graph_mem key else ret false) ;;
  if present : bool then raise (KeyError (OLab key))
  else graph_set key computation.

(** [Reporter.get(key)]: [dask_get(self.graph, key)].  The state is only
    read; a key that the graph does not hold is a [KeyError]. *)
Definition get `{Runtime} (n : nat) (w : world) (key : label)
  : option (outcome obj) :=
  if dict_mem (w_heap w) (graph w) key then execute n w (OLab key)
  else Some (Raise (KeyError (OLab key))).

(** [Reporter.finalize(scenario)] *)
Definition finalize (scenario : obj) : M unit :=
  graph_set (LStr "scenario") scenario.

(** The message of the [ValueError] for an unknown method name. *)
Definition no_method (m : string) : obj :=
  OLab (LStr ("No disaggregation method 'disaggregate_" ++ m ++ "'")%string).

(** Python [isinstance(o, str)]. *)
Definition is_str (o : obj) : bool :=
  match o with
  | OLab (LStr _) => true
  | _ => false
  end.

(** The block under [# Get the method]: a string names an attribute of the
    computation library, and what results must be callable. *)
Definition resolve_method `{Runtime} (method : obj) : outcome obj :=
  let looked_up :=
    match method with
    | OLab (LStr m) =>
        match computations ("disaggregate_" ++ m)%string with
        | Some f => Ok f
        | None => Raise (ValueError (no_method m))
        end
    | _ => Ok method
    end in
  match looked_up with
  | Ok f => if callable f then Ok f else Raise (ValueError f)
  | Raise e => Raise e
  end.

(** [Reporter.disaggregate(var, new_dim, method='shares', args=[])] *)
Definition disaggregate `{Runtime} (var : label) (new_dim : string)
    (method : obj) (args : list obj) : M unit :=
  key <- from_str_or_key var ;;
  (dims_append key new_dim ;;;
   (method' <- lift (resolve_method method) ;;
    graph_set (LKey key) (OTuple ([method'; OLab var] ++ args)))).

(** The [Key] that [var] stands for: the object referred to, or the parse
    of the string. *)
Definition key_of (h : heap) (var : label) : option Key :=
  match var with
  | LStr s => Some (parse s)
  | LKey r => h !! r
  end.

(** The reference that [disaggregate] has in [key]. *)
Definition key_ref (h : heap) (var : label) : nat :=
  match var with
  | LStr _ => length h
  | LKey r => r
  end.

(** The object store once [disaggregate] has computed [key]. *)
Definition heap_appended (h : heap) (var : label) (new_dim : string) : heap :=
  alter (fun k => mkKey (k_name k) (k_dims k ++ [new_dim])) (key_ref h var)
        match var with
        | LStr s => h ++ [parse s]
        | LKey _ => h
        end.

(** The label that [add_file] forms: ['file:{}'.format(path)]. *)
Definition file_label (path : string) : label :=
  LStr ("file:" ++ path)%string.

(** [partial(load_file, path)]: a callable of its own.  Callables are named,
    so this one is named after the function and the argument it holds; it is
    the runtime that says what calling it does. *)
Definition partial_load_file (path : string) : obj :=
  OFun ("partial(load_file, " ++ path ++ ")")%string.

(** [Reporter.add_file(path)] *)
Definition add_file (path : string) : M unit :=
  add (file_label path) (OTuple [partial_load_file path]) false.

End Reporter.

(** ** Sessions without dangling references *)

(** A label that exists in the store [h]: any string, and a reference to an
    object of [h]. *)
Definition label_ok (h : heap) (l : label) : Prop :=
  match l with
  | LStr _ => True
  | LKey r => r < length h
  end.

(** Every key object that the dict holds exists in the store. *)
Definition dict_ok (h : heap) (d : dict) : Prop :=
  Forall (fun e => label_ok h (e_key e)) d.

Definition graph_ok (w : world) : Prop := dict_ok (w_heap w) (graph w).

(** The store [h'] still has every object of [h], as it was. *)
Definition heap_kept (h h' : heap) : Prop :=
  forall r k, h !! r = Some k -> h' !! r = Some k.

(** ** A sample runtime and sample sessions *)

(** A computation library that has [disaggregate_shares] and nothing else of
    that kind; the callable [identity] returns its one argument, and every
    other callable returns a record of its name and arguments. *)
Definition sample_runtime : Runtime := {|
  computations := fun name =>
    if String.eqb name "disaggregate_shares"
    then Some (OFun "disaggregate_shares") else None;
  call := fun f args =>
    if String.eqb f "identity" then
      match args with
      | [a] => Ok a
      | _ => Raise (ValueError (OTuple args))
      end
    else Ok (OTuple (OLab (LStr f) :: args))
|}.

(** A new Reporter, no [Key] object in sight. *)
Definition session0 : world := Reporter.init [].

(** A new Reporter and two equal [Key] objects [x:a], at references 0
    and 1. *)
Definition session_keys : world :=
  Reporter.init [mkKey "x" ["a"]; mkKey "x" ["a"]].

(** The first of the two keys is bound to the literal 1, as
    [add(k0, 1)] leaves it. *)
Definition session_bound : world :=
  snd (Reporter.add (LKey 0) (OInt 1) false session_keys).

(** [add('y', (identity, 'z'))] on a new Reporter. *)
Definition session_forward : world :=
  snd (Reporter.add (LStr "y") (OTuple [OFun "identity"; OLab (LStr "z")])
         false session0).

(** [add('M', 5); add('L', 'M')] on a new Reporter. *)
Definition session_alias : world :=
  snd (Reporter.add (LStr "L") (OLab (LStr "M")) false
         (snd (Reporter.add (LStr "M") (OInt 5) false session0))).

(** [add('x:a', 7)] on a new Reporter: the variable is known by its string. *)
Definition session_var : world :=
  snd (Reporter.add (LStr "x:a") (OInt 7) false session0).

(** A computation library whose attribute [disaggregate_table] is a number,
    not a function. *)
Definition table_runtime : Runtime := {|
  computations := fun name =>
    if String.eqb name "disaggregate_table" then Some (OInt 0) else None;
  call := fun f args => Ok (OTuple (OLab (LStr f) :: args))
|}.

(** * Properties *)

(** ** Label equality is an equivalence *)

#[global] Instance key_equiv_equivalence : Equivalence key_equiv.
Proof.
  split.
  - intros k. unfold key_equiv. done.
  - intros k1 k2 (Hn & H12 & H21). unfold key_equiv. done.
  - intros k1 k2 k3 (Hn & H12 & H21) (Hn' & H23 & H32). unfold key_equiv.
    split; [congruence|]. split; etrans; eauto.
Qed.

#[global] Instance lval_equiv_equivalence : Equivalence lval_equiv.
Proof.
  split.
  - intros [s|k|r]; simpl; done.
  - intros [s|k|r] [s'|k'|r']; simpl; try done.
  - intros [s|k|r] [s'|k'|r'] [s''|k''|r'']; simpl; try done; try congruence.
    apply transitivity.
Qed.

(** ** The dict *)

Section DictFacts.
Variable h : heap.

Lemma hit_fresh k v : hit h k (mkEntry (val h k) k v) = true.
Proof.
  unfold hit. simpl. rewrite bool_decide_eq_true_2 by reflexivity. done.
Qed.

Lemma hit_rebound k e v :
  hit h k (mkEntry (e_hash e) (e_key e) v) = hit h k e.
Proof. reflexivity. Qed.

Lemma hit_equiv k k' e :
  lval_equiv (val h k) (val h k') -> hit h k e = hit h k' e.
Proof.
  intros Heq. unfold hit.
  f_equal; apply bool_decide_ext; by rewrite Heq.
Qed.

Lemma hit_both k k' e :
  hit h k e = true -> hit h k' e = true ->
  lval_equiv (val h k) (val h k').
Proof.
  unfold hit. intros [H1 _]%andb_prop [H2 _]%andb_prop.
  apply bool_decide_eq_true_1 in H1, H2.
  by rewrite <- H1, <- H2.
Qed.

Lemma dict_get_equiv d k k' :
  lval_equiv (val h k) (val h k') -> dict_get h d k = dict_get h d k'.
Proof.
  intros Heq. induction d as [|e d IH]; simpl; [done|].
  rewrite (hit_equiv k k' e Heq). by rewrite IH.
Qed.

Lemma dict_get_set_eq d k v : dict_get h (dict_set h d k v) k = Some v.
Proof.
  induction d as [|e d IH]; simpl.
  - by rewrite hit_fresh.
  - destruct (hit h k e) eqn:He; simpl.
    + by rewrite hit_rebound, He.
    + by rewrite He.
Qed.

Lemma dict_get_set_ne d k k' v :
  ~ lval_equiv (val h k) (val h k') ->
  dict_get h (dict_set h d k v) k' = dict_get h d k'.
Proof.
  intros Hne. induction d as [|e d IH]; simpl.
  - destruct (hit h k' _) eqn:He; [|done].
    exfalso. apply Hne. eapply hit_both; [apply hit_fresh|exact He].
  - destruct (hit h k e) eqn:He; simpl.
    + rewrite hit_rebound.
      destruct (hit h k' e) eqn:He'; [|done].
      exfalso. apply Hne. by eapply hit_both.
    + by rewrite IH.
Qed.

Lemma dict_set_set d k v1 v2 :
  dict_set h (dict_set h d k v1) k v2 = dict_set h d k v2.
Proof.
  induction d as [|e d IH]; simpl.
  - by rewrite hit_fresh.
  - destruct (hit h k e) eqn:He; simpl.
    + by rewrite hit_rebound, He.
    + by rewrite He, IH.
Qed.

Lemma dict_mem_set d k v : dict_mem h (dict_set h d k v) k = true.
Proof. unfold dict_mem. by rewrite dict_get_set_eq. Qed.

Lemma dict_mem_get d k :
  dict_mem h d k = true <-> exists c, dict_get h d k = Some c.
Proof.
  unfold dict_mem. destruct (dict_get h d k); split; eauto.
  - intros ?; discriminate.
  - intros [? ?]; discriminate.
Qed.
End DictFacts.

(** ** [add] and [get] *)

Section ReporterFacts.
Context `{RT : Runtime}.

(** What [add] does, by cases on [strict] and on the presence of the key. *)
Lemma add_unfold key c strict w :
  Reporter.add key c strict w =
  if strict && dict_mem (w_heap w) (graph w) key
  then (Raise (KeyError (OLab key)), w)
  else (Ok tt, mkWorld (w_heap w) (dict_set (w_heap w) (graph w) key c)).
Proof.
  unfold Reporter.add, bind, graph_mem, graph_set, ret, raise.
  destruct strict; simpl; [|done].
  by destruct (dict_mem (w_heap w) (graph w) key).
Qed.

Lemma add_ok_world key c strict w w' :
  Reporter.add key c strict w = (Ok tt, w') ->
  w' = mkWorld (w_heap w) (dict_set (w_heap w) (graph w) key c).
Proof.
  rewrite add_unfold.
  destruct (strict && dict_mem (w_heap w) (graph w) key); congruence.
Qed.

(** A literal evaluates to itself as soon as there is fuel. *)
Lemma execute_literal n w c :
  literal w c = true -> execute (S n) w c = Some (Ok c).
Proof.
  destruct c as [z|l|f|s|xs|xs]; simpl; try done.
  - unfold dict_mem. by destruct (dict_get (w_heap w) (graph w) l).
  - destruct xs as [|[] xs]; done.
Qed.

(** One step of the evaluation of a label, and of a task with one
    argument. *)
Lemma execute_label n w l :
  execute (S n) w (OLab l) =
  match dict_get (w_heap w) (graph w) l with
  | Some c => execute n w c
  | None => Some (Ok (OLab l))
  end.
Proof. reflexivity. Qed.

Lemma execute_unary n w f a :
  execute (S n) w (OTuple [OFun f; a]) =
  match execute n w a with
  | None => None
  | Some (Raise e) => Some (Raise e)
  | Some (Ok v) => Some (call f [v])
  end.
Proof. simpl. by destruct (execute n w a) as [[v|e]|]. Qed.

(** A bound key evaluates as what it is bound to. *)
Lemma get_bound n w key c :
  dict_get (w_heap w) (graph w) key = Some c ->
  Reporter.get (S n) w key = execute n w c.
Proof.
  intros Hc. unfold Reporter.get, dict_mem. rewrite Hc. simpl. by rewrite Hc.
Qed.

Lemma get_unbound n w key :
  dict_mem (w_heap w) (graph w) key = false ->
  Reporter.get n w key = Some (Raise (KeyError (OLab key))).
Proof. intros Hm. unfold Reporter.get. by rewrite Hm. Qed.

(** C1. Strict-mode contract of [add].  Once [add(x, v1)] has returned, a
    second [add(x, v2, strict=True)] raises the [KeyError] of [x] (the
    duplicate-key error) and changes nothing, while
    [add(x, v2, strict=False)] returns, binds [x] to [v2], and [get(x)]
    then is the value of [v2]: [v2] itself when it is a literal.  A strict
    [add] raises exactly when the label is already in the graph. *)
Theorem add_strict_contract :
  (forall w x v1 s1 w1 v2,
      Reporter.add x v1 s1 w = (Ok tt, w1) ->
      Reporter.add x v2 true w1 = (Raise (KeyError (OLab x)), w1)
      /\ exists w2,
          Reporter.add x v2 false w1 = (Ok tt, w2)
          /\ dict_get (w_heap w2) (graph w2) x = Some v2
          /\ (forall n, Reporter.get (S n) w2 x = execute n w2 v2)
          /\ (literal w2 v2 = true ->
              forall n, Reporter.get (S (S n)) w2 x = Some (Ok v2)))
  /\ (forall w x v,
         (exists e, fst (Reporter.add x v true w) = Raise e)
         <-> dict_mem (w_heap w) (graph w) x = true).
Proof.
  split.
  - intros w x v1 s1 w1 v2 Hadd.
    apply add_ok_world in Hadd. subst w1. simpl.
    split.
    + rewrite add_unfold. simpl. by rewrite dict_mem_set.
    + eexists. split; [by rewrite add_unfold|]. simpl.
      assert (Hget : dict_get (w_heap w)
                       (dict_set (w_heap w)
                          (dict_set (w_heap w) (graph w) x v1) x v2) x
                     = Some v2) by apply dict_get_set_eq.
      split; [exact Hget|]. split.
      * intros n. by apply get_bound.
      * intros Hlit n. rewrite (get_bound _ _ _ v2) by exact Hget.
        by apply execute_literal.
  - intros w x v. rewrite add_unfold. simpl.
    destruct (dict_mem (w_heap w) (graph w) x); simpl; split; eauto.
    + intros [e He]. discriminate.
    + intros ?. discriminate.
Qed.

(** ** [disaggregate] *)

(** The call in one piece: the key is computed, and the object it refers
    to extended, before the method is looked at. *)
Lemma disaggregate_unfold var new_dim method args w :
  Reporter.disaggregate var new_dim method args w =
  let h' := Reporter.heap_appended (w_heap w) var new_dim in
  match Reporter.resolve_method method with
  | Ok f =>
      (Ok tt,
       mkWorld h' (dict_set h' (graph w)
                     (LKey (Reporter.key_ref (w_heap w) var))
                     (OTuple (f :: OLab var :: args))))
  | Raise e => (Raise e, mkWorld h' (graph w))
  end.
Proof.
  unfold Reporter.disaggregate, Reporter.heap_appended, Reporter.key_ref.
  unfold bind, from_str_or_key, new_key, dims_append, lift, graph_set, ret.
  destruct var as [s|r]; simpl;
    by destruct (Reporter.resolve_method method).
Qed.

Lemma heap_appended_lookup h var new_dim k :
  Reporter.key_of h var = Some k ->
  Reporter.heap_appended h var new_dim !! Reporter.key_ref h var
  = Some (mkKey (k_name k) (k_dims k ++ [new_dim])).
Proof.
  unfold Reporter.heap_appended, Reporter.key_of, Reporter.key_ref.
  intros Hk. destruct var as [s|r]; rewrite list_lookup_alter_eq.
  - injection Hk as <-. by rewrite list_lookup_middle.
  - by rewrite Hk.
Qed.

(** A successful call binds the extended key to the task. *)
Lemma disaggregate_ok var new_dim method args w f k :
  Reporter.resolve_method method = Ok f ->
  Reporter.key_of (w_heap w) var = Some k ->
  exists w',
    Reporter.disaggregate var new_dim method args w = (Ok tt, w')
    /\ w_heap w' !! Reporter.key_ref (w_heap w) var
       = Some (mkKey (k_name k) (k_dims k ++ [new_dim]))
    /\ forall l,
        lval_equiv (val (w_heap w') l)
                   (VKey (mkKey (k_name k) (k_dims k ++ [new_dim]))) ->
        dict_get (w_heap w') (graph w') l
        = Some (OTuple (f :: OLab var :: args)).
Proof.
  intros Hm Hk. rewrite disaggregate_unfold, Hm. simpl.
  eexists. split; [reflexivity|]. simpl.
  pose proof (heap_appended_lookup _ _ new_dim _ Hk) as Hr.
  split; [exact Hr|].
  intros l Hl.
  rewrite (dict_get_equiv _ _ l (LKey (Reporter.key_ref (w_heap w) var))).
  - apply dict_get_set_eq.
  - simpl. by rewrite Hr.
Qed.

(** C3. Method resolution errors.  A string [m] for which the computation
    library has no attribute [disaggregate_<m>] makes the call raise the
    [ValueError] with the message for a missing method; a method that is
    not a string and not callable makes it raise the [ValueError] of the
    method.  Both are the outcome of the call to [disaggregate] itself. *)
Theorem disaggregate_method_errors :
  (forall w var new_dim m args,
      computations ("disaggregate_" ++ m)%string = None ->
      fst (Reporter.disaggregate var new_dim (OLab (LStr m)) args w)
      = Raise (ValueError (Reporter.no_method m)))
  /\ (forall w var new_dim method args,
         Reporter.is_str method = false ->
         callable method = false ->
         fst (Reporter.disaggregate var new_dim method args w)
         = Raise (ValueError method)).
Proof.
  split.
  - intros w var new_dim m args Hnone.
    rewrite disaggregate_unfold. unfold Reporter.resolve_method.
    by rewrite Hnone.
  - intros w var new_dim method args Hstr Hcall.
    rewrite disaggregate_unfold. unfold Reporter.resolve_method.
    destruct method as [z|[s|r]|g|s|xs|xs]; simpl in *; done.
Qed.

(** C4, as the code has it.  A dimension that the key of [var] already has
    is no obstacle: with a method that resolves, the call returns, the key
    it refers to has [new_dim] once more at the end of its dimensions, and
    that key is bound to the task. *)
Theorem disaggregate_repeats_dim var new_dim method args w f k :
  Reporter.key_of (w_heap w) var = Some k ->
  In new_dim (k_dims k) ->
  Reporter.resolve_method method = Ok f ->
  exists w',
    Reporter.disaggregate var new_dim method args w = (Ok tt, w')
    /\ w_heap w' !! Reporter.key_ref (w_heap w) var
       = Some (mkKey (k_name k) (k_dims k ++ [new_dim]))
    /\ dict_get (w_heap w') (graph w')
         (LKey (Reporter.key_ref (w_heap w) var))
       = Some (OTuple (f :: OLab var :: args)).
Proof.
  intros Hk _ Hm.
  destruct (disaggregate_ok var new_dim method args w f k Hm Hk)
    as (w' & Hcall & Hr & Hbound).
  exists w'. split; [exact Hcall|]. split; [exact Hr|].
  apply Hbound. simpl. by rewrite Hr.
Qed.

(** ** Forward references and aliases *)

(** C5, as the code has it.  [add] never looks at the labels a computation
    refers to: a non-strict [add] always returns.  When [y] is bound to the
    task [(f, z)] and [z] is not a key of the graph, [get(y)] raises no
    error of its own: [z] is a literal and [f] is called on it.  Once [z]
    has been bound to a literal [v], [get(y)] calls [f] on [v]. *)
Theorem forward_reference_literal :
  (forall w y c, exists w', Reporter.add y c false w = (Ok tt, w'))
  /\ (forall w y z f n,
         dict_get (w_heap w) (graph w) y = Some (OTuple [OFun f; OLab z]) ->
         dict_mem (w_heap w) (graph w) z = false ->
         Reporter.get (3 + n) w y = Some (call f [OLab z]))
  /\ (forall w y z f v w' n,
         dict_get (w_heap w) (graph w) y = Some (OTuple [OFun f; OLab z]) ->
         ~ lval_equiv (val (w_heap w) z) (val (w_heap w) y) ->
         Reporter.add z v false w = (Ok tt, w') ->
         literal w' v = true ->
         Reporter.get (4 + n) w' y = Some (call f [v])).
Proof.
  split; [|split].
  - intros w y c. rewrite add_unfold. simpl. eauto.
  - intros w y z f n Hy Hz.
    change (3 + n) with (S (S (S n))).
    rewrite (get_bound _ _ _ _ Hy). simpl.
    unfold dict_mem in Hz.
    by destruct (dict_get (w_heap w) (graph w) z).
  - intros w y z f v w' n Hy Hne Hadd Hlit.
    apply add_ok_world in Hadd. subst w'.
    assert (Hy' : dict_get (w_heap w)
                    (dict_set (w_heap w) (graph w) z v) y
                  = Some (OTuple [OFun f; OLab z]))
      by (rewrite dict_get_set_ne; done).
    change (4 + n) with (S (S (S (S n)))).
    rewrite (get_bound _ (mkWorld _ _) _ _ Hy').
    rewrite execute_unary, execute_label. cbn [w_heap graph].
    rewrite dict_get_set_eq.
    by rewrite (execute_literal n _ _ Hlit).
Qed.

(** C7. Aliasing.  When the graph binds [L] to the label [M] and [M] is a
    key of the graph, [get(L)] is [get(M)] one step later: the two calls
    have the same outcomes.  [get] reads the state and leaves it as it is,
    so this holds in every state in which the two bindings stand. *)
Theorem alias_get_eq w L M :
  dict_get (w_heap w) (graph w) L = Some (OLab M) ->
  dict_mem (w_heap w) (graph w) M = true ->
  (forall n, Reporter.get (S n) w L = Reporter.get n w M)
  /\ (forall o,
         (exists n, Reporter.get n w L = Some o)
         <-> (exists n, Reporter.get n w M = Some o)).
Proof.
  intros HL HM.
  assert (Hstep : forall n, Reporter.get (S n) w L = Reporter.get n w M).
  { intros n. rewrite (get_bound _ _ _ _ HL).
    unfold Reporter.get. by rewrite HM. }
  split; [exact Hstep|].
  intros o. split.
  - intros [[|n] Hn].
    + unfold Reporter.get in Hn.
      assert (HL' : dict_mem (w_heap w) (graph w) L = true)
        by (apply dict_mem_get; eauto).
      rewrite HL' in Hn. discriminate.
    + exists n. by rewrite <- Hstep.
  - intros [n Hn]. exists (S n). by rewrite Hstep.
Qed.

(** ** [finalize] *)

(** C8. Frame and idempotence of [finalize].  [finalize(s)] returns, binds
    the label ['scenario'] to [s], and leaves the object store and the
    binding of every other label as they were; after [finalize(s1)], a
    [finalize(s2)] leaves the state that [finalize(s2)] alone gives. *)
Theorem finalize_frame_idem :
  (forall w s,
      exists w',
        Reporter.finalize s w = (Ok tt, w')
        /\ w_heap w' = w_heap w
        /\ dict_get (w_heap w') (graph w') (LStr "scenario") = Some s
        /\ forall l,
            l <> LStr "scenario" ->
            dict_get (w_heap w') (graph w') l
            = dict_get (w_heap w) (graph w) l)
  /\ (forall w s1 s2,
         snd (Reporter.finalize s2 (snd (Reporter.finalize s1 w)))
         = snd (Reporter.finalize s2 w)).
Proof.
  split.
  - intros w s. unfold Reporter.finalize, graph_set.
    eexists. split; [reflexivity|]. simpl.
    split; [done|]. split; [apply dict_get_set_eq|].
    intros l Hl. apply dict_get_set_ne.
    destruct l as [t|r]; simpl.
    + congruence.
    + destruct (w_heap w !! r); simpl; tauto.
  - intros w s1 s2. unfold Reporter.finalize, graph_set. simpl.
    by rewrite dict_set_set.
Qed.

(** ** What a failing call leaves behind *)

(** A failing [add] is the [KeyError] of its key and changes nothing. *)
Lemma failed_add_state key c strict w e w' :
  Reporter.add key c strict w = (Raise e, w') ->
  e = KeyError (OLab key) /\ w' = w.
Proof.
  rewrite add_unfold.
  destruct (strict && dict_mem (w_heap w) (graph w) key);
    intros [=]; by subst.
Qed.

(** A failing [disaggregate] leaves the entries of the graph, and the
    objects that existed when [var] is a string: only the new key is
    affected. *)
Lemma failed_disaggregate_entries var new_dim method args w e w' :
  Reporter.disaggregate var new_dim method args w = (Raise e, w') ->
  graph w' = graph w
  /\ forall s, var = LStr s ->
     forall r k, w_heap w !! r = Some k -> w_heap w' !! r = Some k.
Proof.
  rewrite disaggregate_unfold.
  destruct (Reporter.resolve_method method) as [f|e0]; simpl; intros [=].
  subst e0 w'. simpl. split; [done|].
  intros s -> r k Hk. unfold Reporter.heap_appended. simpl.
  apply lookup_lt_Some in Hk as Hlt.
  rewrite list_lookup_alter_ne by lia.
  by rewrite lookup_app_l.
Qed.

(** ** Alias cycles *)

(** The evaluation of two labels bound to each other has no outcome,
    whatever the fuel.  What the scheduler of the dask library does with
    such a graph is not part of this development. *)
Lemma alias_cycle_no_outcome w p q :
  dict_get (w_heap w) (graph w) p = Some (OLab q) ->
  dict_get (w_heap w) (graph w) q = Some (OLab p) ->
  forall n, execute n w (OLab p) = None /\ execute n w (OLab q) = None.
Proof.
  intros Hp Hq n. induction n as [|n [IHp IHq]]; [done|].
  rewrite !execute_label, Hp, Hq. done.
Qed.

End ReporterFacts.

(** * The sample sessions *)

Lemma add_strict_contract_witness :
  Reporter.add (LStr "x") (OInt 1) true session0
  = (Ok tt, mkWorld [] [mkEntry (VStr "x") (LStr "x") (OInt 1)])
  /\ fst (Reporter.add (LStr "x") (OInt 2) true
            (mkWorld [] [mkEntry (VStr "x") (LStr "x") (OInt 1)]))
     = Raise (KeyError (OLab (LStr "x")))
  /\ exists w2,
      Reporter.add (LStr "x") (OInt 2) false
        (mkWorld [] [mkEntry (VStr "x") (LStr "x") (OInt 1)]) = (Ok tt, w2)
      /\ @Reporter.get sample_runtime 2 w2 (LStr "x") = Some (Ok (OInt 2)).
Proof.
  split; [reflexivity|].
  destruct (proj1 (@add_strict_contract sample_runtime)
              session0 (LStr "x") (OInt 1) true
              (mkWorld [] [mkEntry (VStr "x") (LStr "x") (OInt 1)])
              (OInt 2) eq_refl)
    as [Hstrict (w2 & Hadd & _ & _ & Hlit)].
  split; [by rewrite Hstrict|].
  exists w2. split; [exact Hadd|]. apply Hlit. reflexivity.
Defined.

Lemma disaggregate_method_errors_witness :
  fst (@Reporter.disaggregate sample_runtime (LStr "x:a") "b"
         (OLab (LStr "nosuch")) [] session0)
  = Raise (ValueError
             (OLab (LStr "No disaggregation method 'disaggregate_nosuch'")))
  /\ fst (@Reporter.disaggregate sample_runtime (LStr "x:a") "b"
            (OInt 3) [] session0)
     = Raise (ValueError (OInt 3)).
Proof.
  split.
  - apply (proj1 (@disaggregate_method_errors sample_runtime)). reflexivity.
  - apply (proj2 (@disaggregate_method_errors sample_runtime)); reflexivity.
Defined.

(** C4 fails on the code: ['x:a'] already has the dimension [a], and
    [disaggregate('x:a', 'a', identity)] raises nothing and leaves a new
    binding in the graph. *)
Lemma disaggregate_duplicate_dim_accepted :
  In "a" (k_dims (parse "x:a"))
  /\ @Reporter.disaggregate sample_runtime (LStr "x:a") "a"
       (OFun "identity") [] session0
     = (Ok tt,
        mkWorld [mkKey "x" ["a"; "a"]]
          [mkEntry (VKey (mkKey "x" ["a"; "a"])) (LKey 0)
             (OTuple [OFun "identity"; OLab (LStr "x:a")])])
  /\ graph session0 = [].
Proof. split; [simpl; tauto|]. split; reflexivity. Qed.

Lemma disaggregate_repeats_dim_witness :
  exists w',
    @Reporter.disaggregate sample_runtime (LKey 0) "a" (OFun "identity") []
      session_bound = (Ok tt, w')
    /\ w_heap w' !! 0 = Some (mkKey "x" ["a"; "a"])
    /\ dict_get (w_heap w') (graph w') (LKey 0)
       = Some (OTuple [OFun "identity"; OLab (LKey 0)]).
Proof.
  apply (@disaggregate_repeats_dim sample_runtime (LKey 0) "a"
           (OFun "identity") [] session_bound (OFun "identity")
           (mkKey "x" ["a"])).
  - reflexivity.
  - simpl. tauto.
  - reflexivity.
Defined.

(** C5 fails on the code: with [y] bound to [(identity, 'z')] and ['z']
    bound nowhere, [get('y')] returns the string ['z'], and raises nothing
    however long it runs. *)
Lemma forward_reference_unbound_returns :
  dict_mem (w_heap session_forward) (graph session_forward) (LStr "z") = false
  /\ @Reporter.get sample_runtime 3 session_forward (LStr "y")
     = Some (Ok (OLab (LStr "z")))
  /\ ~ exists n e,
        @Reporter.get sample_runtime n session_forward (LStr "y")
        = Some (Raise e).
Proof.
  split; [reflexivity|]. split; [reflexivity|].
  intros (n & e & Hn).
  destruct n as [|[|[|n]]]; discriminate.
Qed.

Lemma forward_reference_literal_witness :
  @Reporter.get sample_runtime 3 session_forward (LStr "y")
  = Some (Ok (OLab (LStr "z")))
  /\ exists w',
      Reporter.add (LStr "z") (OInt 5) false session_forward = (Ok tt, w')
      /\ @Reporter.get sample_runtime 4 w' (LStr "y") = Some (Ok (OInt 5)).
Proof.
  destruct (@forward_reference_literal sample_runtime) as (_ & Hlit & Hset).
  split.
  - apply (Hlit session_forward (LStr "y") (LStr "z") "identity" 0);
      reflexivity.
  - eexists. split; [reflexivity|].
    apply (Hset session_forward (LStr "y") (LStr "z") "identity" (OInt 5)
             _ 0).
    + reflexivity.
    + simpl. intros [=].
    + reflexivity.
    + reflexivity.
Defined.

Lemma alias_get_eq_witness :
  @Reporter.get sample_runtime 3 session_alias (LStr "L")
  = @Reporter.get sample_runtime 2 session_alias (LStr "M")
  /\ @Reporter.get sample_runtime 2 session_alias (LStr "M")
     = Some (Ok (OInt 5)).
Proof.
  split; [|reflexivity].
  apply (proj1 (@alias_get_eq sample_runtime session_alias
                  (LStr "L") (LStr "M") eq_refl eq_refl)).
Defined.

Lemma finalize_frame_idem_witness :
  exists w',
    Reporter.finalize (OScenario 7) session_alias = (Ok tt, w')
    /\ dict_get (w_heap w') (graph w') (LStr "scenario") = Some (OScenario 7)
    /\ dict_get (w_heap w') (graph w') (LStr "M") = Some (OInt 5).
Proof.
  destruct (proj1 finalize_frame_idem session_alias (OScenario 7))
    as (w' & Hcall & _ & Hroot & Hframe).
  exists w'. split; [exact Hcall|]. split; [exact Hroot|].
  rewrite (Hframe (LStr "M")); [reflexivity|]. intros [=].
Defined.

(** C2 fails on the code when [var] is a [Key] object.  With the key [x:a]
    at reference 0, [disaggregate(k0, 'b', 'shares', ['share:a-b'])] binds
    the key [x:a-b] to a task whose second element is the object [k0]
    itself, which by then reads [x:a-b] and no longer [x:a]: the task is on
    the key it is bound to, not on the variable that was to be
    disaggregated. *)
Lemma disaggregate_key_var_task_on_new_key :
  val (w_heap session_bound) (LKey 0) = VKey (mkKey "x" ["a"])
  /\ exists w',
      @Reporter.disaggregate sample_runtime (LKey 0) "b"
        (OLab (LStr "shares")) [OLab (LStr "share:a-b")] session_bound
      = (Ok tt, w')
      /\ dict_get (w_heap w') (graph w') (LKey 0)
         = Some (OTuple [OFun "disaggregate_shares"; OLab (LKey 0);
                         OLab (LStr "share:a-b")])
      /\ val (w_heap w') (LKey 0) = VKey (mkKey "x" ["a"; "b"])
      /\ ~ lval_equiv (val (w_heap w') (LKey 0)) (VKey (mkKey "x" ["a"])).
Proof.
  split; [reflexivity|]. eexists. split; [reflexivity|].
  split; [reflexivity|]. split; [reflexivity|].
  simpl. intros (_ & Hsub & _).
  specialize (Hsub "b"). rewrite !list_elem_of_In in Hsub.
  simpl in Hsub. destruct Hsub as [Hb|[]]; [tauto|discriminate].
Qed.

(** C9 fails on the code: the [Key] object passed as [var] is the object
    that gets the new dimension.  With the key [x:a] at reference 0,
    [disaggregate(k0, 'b', identity)] leaves [x:a-b] at reference 0, bound to
    a task whose argument is that same object. *)
Lemma disaggregate_mutates_var :
  w_heap session_keys !! 0 = Some (mkKey "x" ["a"])
  /\ exists w',
      @Reporter.disaggregate sample_runtime (LKey 0) "b" (OFun "identity") []
        session_keys = (Ok tt, w')
      /\ w_heap w' !! 0 = Some (mkKey "x" ["a"; "b"])
      /\ dict_get (w_heap w') (graph w') (LKey 0)
         = Some (OTuple [OFun "identity"; OLab (LKey 0)]).
Proof.
  split; [reflexivity|]. eexists. split; [reflexivity|].
  split; reflexivity.
Qed.

(** C10 fails on the code: the key is extended before the method is looked
    up.  With the key [x:a] at reference 0 bound to 1,
    [disaggregate(k0, 'b', 'nosuch')] raises, the graph holds the entries it
    held, but the key of the entry now reads [x:a-b]: a lookup with an equal
    key [x:a] found 1 before the call and finds nothing after it. *)
Lemma failed_disaggregate_changes_registry_key :
  dict_get (w_heap session_bound) (graph session_bound) (LKey 1)
  = Some (OInt 1)
  /\ exists e w',
      @Reporter.disaggregate sample_runtime (LKey 0) "b"
        (OLab (LStr "nosuch")) [] session_bound = (Raise e, w')
      /\ graph w' = graph session_bound
      /\ w_heap w' !! 0 = Some (mkKey "x" ["a"; "b"])
      /\ dict_get (w_heap w') (graph w') (LKey 1) = None.
Proof.
  split; [reflexivity|]. eexists. eexists. split; [reflexivity|].
  split; [reflexivity|]. split; reflexivity.
Qed.

(** * More of the Reporter *)

(** ** The dict across a change of the store *)

Lemma val_kept h h' l :
  heap_kept h h' -> label_ok h l -> val h' l = val h l.
Proof.
  intros Hk Hl. destruct l as [s|r]; simpl in *; [done|].
  destruct (lookup_lt_is_Some_2 h r Hl) as [k Hr].
  by rewrite Hr, (Hk _ _ Hr).
Qed.

Lemma dict_get_kept h h' d l :
  heap_kept h h' -> dict_ok h d -> label_ok h l ->
  dict_get h' d l = dict_get h d l.
Proof.
  intros Hk Hd Hl. induction Hd as [|e d He Hd IH]; simpl; [done|].
  unfold hit. rewrite (val_kept h h' l Hk Hl), (val_kept h h' _ Hk He).
  by rewrite IH.
Qed.

Lemma label_ok_kept h h' l :
  heap_kept h h' -> label_ok h l -> label_ok h' l.
Proof.
  intros Hk Hl. destruct l as [s|r]; simpl in *; [done|].
  destruct (lookup_lt_is_Some_2 h r Hl) as [k Hr].
  apply Hk in Hr. by apply lookup_lt_Some in Hr.
Qed.

Lemma dict_ok_kept h h' d :
  heap_kept h h' -> dict_ok h d -> dict_ok h' d.
Proof.
  intros Hk Hd. unfold dict_ok in *.
  eapply Forall_impl; [exact Hd|]. intros e. by apply label_ok_kept.
Qed.

Lemma dict_ok_set h d k v :
  dict_ok h d -> label_ok h k -> dict_ok h (dict_set h d k v).
Proof.
  intros Hd Hk. induction Hd as [|e d He Hd IH]; simpl.
  - by repeat constructor.
  - destruct (hit h k e); constructor; done.
Qed.

(** The size of a dict after [d[k] = v]. *)
Lemma dict_set_length h d k v :
  length (dict_set h d k v)
  = if dict_mem h d k then length d else S (length d).
Proof.
  unfold dict_mem. induction d as [|e d IH]; simpl; [done|].
  destruct (hit h k e); simpl; [done|].
  rewrite IH. by destruct (dict_get h d k).
Qed.

(** The store that [disaggregate] leaves for a string [var] has all the
    objects there were. *)
Lemma heap_appended_kept h s new_dim :
  heap_kept h (Reporter.heap_appended h (LStr s) new_dim).
Proof.
  intros r k Hk. unfold Reporter.heap_appended. simpl.
  apply lookup_lt_Some in Hk as Hlt.
  rewrite list_lookup_alter_ne by lia.
  by rewrite lookup_app_l.
Qed.

Section MoreReporterFacts.
Context `{RT : Runtime}.

(** ** [add] *)

(** X1. [add] touches one label.  When [add(key, computation, strict)]
    returns, the object store is as it was and every label that is not equal
    to [key] is bound to what it was bound to, or still unbound. *)
Theorem add_frame key c strict w w' l :
  Reporter.add key c strict w = (Ok tt, w') ->
  ~ lval_equiv (val (w_heap w) key) (val (w_heap w) l) ->
  w_heap w' = w_heap w
  /\ dict_get (w_heap w') (graph w') l = dict_get (w_heap w) (graph w) l.
Proof.
  intros Hadd Hne. apply add_ok_world in Hadd. subst w'. simpl.
  split; [done|]. by apply dict_get_set_ne.
Qed.

(** X2. The last [add] wins.  Two [add]s without [strict] under the same key
    leave exactly the state that the second one alone leaves. *)
Theorem add_last_wins key c1 c2 w :
  snd (Reporter.add key c2 false (snd (Reporter.add key c1 false w)))
  = snd (Reporter.add key c2 false w).
Proof.
  rewrite !add_unfold. simpl. by rewrite dict_set_set.
Qed.

(** X3. [add] never duplicates a label.  When it returns, the graph has one
    entry more if the key was not in it, and as many as before if it was. *)
Theorem add_size key c strict w w' :
  Reporter.add key c strict w = (Ok tt, w') ->
  length (graph w')
  = if dict_mem (w_heap w) (graph w) key then length (graph w)
    else S (length (graph w)).
Proof.
  intros Hadd. apply add_ok_world in Hadd. subst w'. simpl.
  apply dict_set_length.
Qed.

(** ** [get] *)

Lemma execute_task n w f args :
  execute (S n) w (OTuple (OFun f :: args)) =
  match exec_all (execute n w) args with
  | None => None
  | Some (Raise e) => Some (Raise e)
  | Some (Ok vs) => Some (call f vs)
  end.
Proof. reflexivity. Qed.

(** X4. The example in the docstring of [add].  After
    [add(l, (f, 'scenario'))] and [finalize(s)], [get(l)] calls [f] on [s];
    after a further [finalize(s')] it calls [f] on [s'].  [l] is any label
    but ['scenario'], and [s], [s'] are literals, as a scenario is. *)
Theorem scenario_task w l f s s' w1 w2 w3 :
  l <> LStr "scenario" ->
  Reporter.add l (OTuple [OFun f; OLab (LStr "scenario")]) false w
  = (Ok tt, w1) ->
  Reporter.finalize s w1 = (Ok tt, w2) ->
  Reporter.finalize s' w2 = (Ok tt, w3) ->
  literal w2 s = true ->
  literal w3 s' = true ->
  forall n,
    Reporter.get (4 + n) w2 l = Some (call f [s])
    /\ Reporter.get (4 + n) w3 l = Some (call f [s']).
Proof.
  intros Hl Hadd Hfin Hfin' Hlit Hlit' n.
  assert (Hrun : forall w0 s0,
             dict_get (w_heap w0) (graph w0) l
             = Some (OTuple [OFun f; OLab (LStr "scenario")]) ->
             dict_get (w_heap w0) (graph w0) (LStr "scenario") = Some s0 ->
             literal w0 s0 = true ->
             Reporter.get (4 + n) w0 l = Some (call f [s0])).
  { intros w0 s0 Htask Hs0 Hlit0.
    change (4 + n) with (S (S (S (S n)))).
    rewrite (get_bound _ _ _ _ Htask), execute_unary, execute_label, Hs0.
    by rewrite (execute_literal n _ _ Hlit0). }
  assert (Hne : forall h, ~ lval_equiv (val h (LStr "scenario")) (val h l)).
  { intros h. destruct l as [t|r]; simpl; [congruence|].
    destruct (h !! r); simpl; tauto. }
  apply add_ok_world in Hadd. subst w1.
  unfold Reporter.finalize, graph_set in Hfin, Hfin'.
  injection Hfin as <-. injection Hfin' as <-. simpl in *.
  split; apply Hrun; simpl.
  - rewrite dict_get_set_ne by apply Hne. apply dict_get_set_eq.
  - apply dict_get_set_eq.
  - exact Hlit.
  - rewrite !dict_get_set_ne by apply Hne. apply dict_get_set_eq.
  - apply dict_get_set_eq.
  - exact Hlit'.
Qed.

(** ** [disaggregate] *)

Lemma resolve_method_callable method f :
  Reporter.resolve_method method = Ok f -> exists name, f = OFun name.
Proof.
  unfold Reporter.resolve_method.
  destruct method as [z|[m|r]|g|s|xs|xs]; simpl; try discriminate.
  - destruct (computations _) as [a|]; [|discriminate].
    destruct a; simpl; try discriminate. intros [= <-]. eauto.
  - intros [= <-]. eauto.
Qed.

(** X5. An attribute that is not callable.  When [method] is a string and
    the computation library has an attribute [disaggregate_<method>] that is
    not callable, the call raises the [ValueError] of that attribute. *)
Theorem disaggregate_attribute_not_callable w var new_dim m args a :
  computations ("disaggregate_" ++ m)%string = Some a ->
  callable a = false ->
  fst (Reporter.disaggregate var new_dim (OLab (LStr m)) args w)
  = Raise (ValueError a).
Proof.
  intros Hattr Hcall. rewrite disaggregate_unfold.
  unfold Reporter.resolve_method. by rewrite Hattr, Hcall.
Qed.

(** The state a successful call on a string leaves. *)
Lemma disaggregate_string_world w s new_dim method args w' :
  Reporter.disaggregate (LStr s) new_dim method args w = (Ok tt, w') ->
  exists f,
    Reporter.resolve_method method = Ok (OFun f)
    /\ w' = mkWorld (Reporter.heap_appended (w_heap w) (LStr s) new_dim)
              (dict_set (Reporter.heap_appended (w_heap w) (LStr s) new_dim)
                 (graph w) (LKey (length (w_heap w)))
                 (OTuple (OFun f :: OLab (LStr s) :: args))).
Proof.
  rewrite disaggregate_unfold.
  destruct (Reporter.resolve_method method) as [g|e] eqn:Hm; [|discriminate].
  destruct (resolve_method_callable _ _ Hm) as [f ->].
  simpl. intros [= <-]. eauto.
Qed.

Lemma disaggregate_string_other w s new_dim f args l :
  graph_ok w -> label_ok (w_heap w) l ->
  ~ lval_equiv (val (w_heap w) l)
      (VKey (mkKey (k_name (parse s)) (k_dims (parse s) ++ [new_dim]))) ->
  dict_get (Reporter.heap_appended (w_heap w) (LStr s) new_dim)
    (dict_set (Reporter.heap_appended (w_heap w) (LStr s) new_dim)
       (graph w) (LKey (length (w_heap w)))
       (OTuple (OFun f :: OLab (LStr s) :: args))) l
  = dict_get (w_heap w) (graph w) l.
Proof.
  intros Hok Hl Hne.
  pose proof (heap_appended_kept (w_heap w) s new_dim) as Hkept.
  pose proof (heap_appended_lookup (w_heap w) (LStr s) new_dim _ eq_refl)
    as Hnew.
  simpl in Hnew.
  rewrite dict_get_set_ne.
  - by apply dict_get_kept.
  - simpl. rewrite Hnew, (val_kept _ _ l Hkept Hl).
    intros Heq. apply Hne. by symmetry.
Qed.

(** X6. A failing call on a string changes no lookup.  When [var] is a
    string and [disaggregate] raises, every object that existed is as it
    was, and every label is bound to what it was bound to. *)
Theorem failed_disaggregate_string_frame w s new_dim method args e w' l :
  graph_ok w ->
  Reporter.disaggregate (LStr s) new_dim method args w = (Raise e, w') ->
  label_ok (w_heap w) l ->
  heap_kept (w_heap w) (w_heap w')
  /\ dict_get (w_heap w') (graph w') l = dict_get (w_heap w) (graph w) l.
Proof.
  intros Hok. rewrite disaggregate_unfold.
  destruct (Reporter.resolve_method method) as [f|e0]; simpl; intros [=] Hl.
  subst e0 w'. simpl.
  pose proof (heap_appended_kept (w_heap w) s new_dim) as Hkept.
  split; [exact Hkept|]. by apply dict_get_kept.
Qed.

(** X7. A successful call on a string adds and changes nothing else.  Every
    object that existed is as it was, and every label that does not denote
    the new key is bound to what it was bound to. *)
Theorem disaggregate_string_frame w s new_dim method args w' l :
  graph_ok w ->
  Reporter.disaggregate (LStr s) new_dim method args w = (Ok tt, w') ->
  label_ok (w_heap w) l ->
  ~ lval_equiv (val (w_heap w) l)
      (VKey (mkKey (k_name (parse s)) (k_dims (parse s) ++ [new_dim]))) ->
  heap_kept (w_heap w) (w_heap w')
  /\ dict_get (w_heap w') (graph w') l = dict_get (w_heap w) (graph w) l.
Proof.
  intros Hok Hcall Hl Hne.
  destruct (disaggregate_string_world _ _ _ _ _ _ Hcall) as (f & _ & ->).
  simpl. split; [apply heap_appended_kept|].
  by apply disaggregate_string_other.
Qed.

(** X8. Disaggregating the same string by the same dimension again.  The
    key of the second call equals the key of the first: the graph gets no
    further entry, and the key of the first call, which was bound to the task
    of the first call, is bound to the task of the second, as is the key of
    the second. *)
Theorem disaggregate_again_same_entry w s new_dim m1 a1 m2 a2 w1 w2 :
  graph_ok w ->
  Reporter.disaggregate (LStr s) new_dim m1 a1 w = (Ok tt, w1) ->
  Reporter.disaggregate (LStr s) new_dim m2 a2 w1 = (Ok tt, w2) ->
  exists f1 f2,
    Reporter.resolve_method m1 = Ok (OFun f1)
    /\ Reporter.resolve_method m2 = Ok (OFun f2)
    /\ dict_get (w_heap w1) (graph w1) (LKey (length (w_heap w)))
       = Some (OTuple (OFun f1 :: OLab (LStr s) :: a1))
    /\ dict_get (w_heap w2) (graph w2) (LKey (length (w_heap w)))
       = Some (OTuple (OFun f2 :: OLab (LStr s) :: a2))
    /\ dict_get (w_heap w2) (graph w2) (LKey (length (w_heap w1)))
       = Some (OTuple (OFun f2 :: OLab (LStr s) :: a2))
    /\ length (graph w2) = length (graph w1).
Proof.
  intros Hok H1 H2.
  destruct (disaggregate_string_world _ _ _ _ _ _ H1) as (f1 & Hf1 & ->).
  destruct (disaggregate_string_world _ _ _ _ _ _ H2) as (f2 & Hf2 & ->).
  exists f1, f2. split; [exact Hf1|]. split; [exact Hf2|].
  simpl.
  set (h1 := Reporter.heap_appended (w_heap w) (LStr s) new_dim).
  set (h2 := Reporter.heap_appended h1 (LStr s) new_dim).
  set (t1 := OTuple (OFun f1 :: OLab (LStr s) :: a1)).
  set (t2 := OTuple (OFun f2 :: OLab (LStr s) :: a2)).
  set (g1 := dict_set h1 (graph w) (LKey (length (w_heap w))) t1).
  pose proof (heap_appended_kept (w_heap w) s new_dim) as Hk1.
  pose proof (heap_appended_kept h1 s new_dim) as Hk2.
  pose proof (heap_appended_lookup (w_heap w) (LStr s) new_dim _ eq_refl)
    as Hn1.
  pose proof (heap_appended_lookup h1 (LStr s) new_dim _ eq_refl) as Hn2.
  simpl in Hn1, Hn2. fold h1 in Hk1, Hn1, Hk2, Hn2. fold h2 in Hk2, Hn2.
  assert (Hr1 : label_ok h1 (LKey (length (w_heap w))))
    by (simpl; by apply lookup_lt_Some in Hn1).
  assert (Hg1 : dict_ok h1 g1).
  { apply dict_ok_set; [|exact Hr1]. by apply (dict_ok_kept (w_heap w)). }
  assert (Hsame : lval_equiv (val h2 (LKey (length h1)))
                    (val h2 (LKey (length (w_heap w))))).
  { simpl. rewrite Hn2, (Hk2 _ _ Hn1). reflexivity. }
  assert (Hmem : dict_get h2 g1 (LKey (length h1)) = Some t1).
  { rewrite (dict_get_equiv h2 g1 _ _ Hsame).
    rewrite (dict_get_kept h1 h2 g1 _ Hk2 Hg1 Hr1).
    apply dict_get_set_eq. }
  split; [apply dict_get_set_eq|].
  split.
  { rewrite <- (dict_get_equiv h2 _ _ _ Hsame). apply dict_get_set_eq. }
  split; [apply dict_get_set_eq|].
  rewrite dict_set_length. unfold dict_mem. by rewrite Hmem.
Qed.

Lemma exec_all_literals n w xs :
  Forall (fun a => literal w a = true) xs ->
  exec_all (execute (S n) w) xs = Some (Ok xs).
Proof.
  induction 1 as [|x xs Hx _ IH]; [done|].
  cbn [exec_all]. by rewrite (execute_literal n w x Hx), IH.
Qed.

(** X9. What the bound method receives.  When the string [s] is bound to a
    literal [d], and [disaggregate(s, new_dim, method, args)] has returned
    with literal [args], [get] of the new key calls the method on [d]
    followed by [args]. *)
Theorem disaggregate_then_get w s new_dim method args f d w' :
  graph_ok w ->
  Reporter.resolve_method method = Ok (OFun f) ->
  dict_get (w_heap w) (graph w) (LStr s) = Some d ->
  Reporter.disaggregate (LStr s) new_dim method args w = (Ok tt, w') ->
  literal w' d = true ->
  Forall (fun a => literal w' a = true) args ->
  forall n,
    Reporter.get (4 + n) w' (LKey (length (w_heap w)))
    = Some (call f (d :: args)).
Proof.
  intros Hok Hm Hd Hcall Hlit Hargs n.
  destruct (disaggregate_string_world _ _ _ _ _ _ Hcall) as (f' & Hm' & Hw).
  rewrite Hm in Hm'. injection Hm' as <-.
  assert (Hkey : dict_get (w_heap w') (graph w') (LKey (length (w_heap w)))
                 = Some (OTuple (OFun f :: OLab (LStr s) :: args)))
    by (subst w'; apply dict_get_set_eq).
  assert (Hvar : dict_get (w_heap w') (graph w') (LStr s) = Some d).
  { subst w'. simpl. rewrite disaggregate_string_other.
    - exact Hd.
    - exact Hok.
    - exact I.
    - simpl. tauto. }
  change (4 + n) with (S (S (S (S n)))).
  rewrite (get_bound _ _ _ _ Hkey), execute_task.
  cbn [exec_all]. rewrite execute_label, Hvar.
  rewrite (execute_literal n _ _ Hlit).
  by rewrite (exec_all_literals (S n) _ _ Hargs).
Qed.

(** X10. A [Key] object as [var] gives a task that waits for itself.  When
    [disaggregate] has returned for a [Key] object, the object is the key of
    the new binding and the first argument of its task, and [get] of it
    returns no value, however long it runs. *)
Theorem disaggregate_key_waits_for_itself w r new_dim method args w' :
  Reporter.disaggregate (LKey r) new_dim method args w = (Ok tt, w') ->
  (exists f,
      dict_get (w_heap w') (graph w') (LKey r)
      = Some (OTuple (OFun f :: OLab (LKey r) :: args)))
  /\ forall n v, Reporter.get n w' (LKey r) <> Some (Ok v).
Proof.
  rewrite disaggregate_unfold.
  destruct (Reporter.resolve_method method) as [g|e] eqn:Hm; [|discriminate].
  destruct (resolve_method_callable _ _ Hm) as [f ->].
  simpl. intros [= <-]. simpl.
  set (h' := Reporter.heap_appended (w_heap w) (LKey r) new_dim).
  set (t := OTuple (OFun f :: OLab (LKey r) :: args)).
  set (w' := mkWorld h' (dict_set h' (graph w) (LKey r) t)).
  assert (Hkey : dict_get (w_heap w') (graph w') (LKey r) = Some t)
    by apply dict_get_set_eq.
  split; [by exists f|].
  assert (Hnone : forall n,
             execute n w' (OLab (LKey r)) = None /\ execute n w' t = None).
  { induction n as [|n [IHk IHt]]; [done|]. split.
    - by rewrite execute_label, Hkey.
    - unfold t. rewrite execute_task. cbn [exec_all]. by rewrite IHk. }
  intros n v. unfold Reporter.get, dict_mem. rewrite Hkey.
  by rewrite (proj1 (Hnone n)).
Qed.

(** ** [add_file] *)


(** X12. Files stay apart.  After [add_file(p1)] and [add_file(p2)] for two
    different paths, each label is bound to the loader of its own path. *)
Theorem add_file_paths_apart w p1 p2 :
  p1 <> p2 ->
  let w2 := snd (Reporter.add_file p2 (snd (Reporter.add_file p1 w))) in
  dict_get (w_heap w2) (graph w2) (Reporter.file_label p1)
  = Some (OTuple [Reporter.partial_load_file p1])
  /\ dict_get (w_heap w2) (graph w2) (Reporter.file_label p2)
     = Some (OTuple [Reporter.partial_load_file p2]).
Proof.
  intros Hp. unfold Reporter.add_file. rewrite !add_unfold. simpl.
  split; [|apply dict_get_set_eq].
  rewrite dict_get_set_ne; [apply dict_get_set_eq|].
  simpl. intros [= Heq]. by apply Hp.
Qed.

End MoreReporterFacts.

(** * More sample sessions *)

Lemma add_frame_witness :
  exists w',
    Reporter.add (LStr "N") (OInt 9) true session_alias = (Ok tt, w')
    /\ dict_get (w_heap w') (graph w') (LStr "M") = Some (OInt 5).
Proof.
  eexists. split; [reflexivity|].
  eapply (@add_frame (LStr "N") (OInt 9) true session_alias _ (LStr "M")).
  - reflexivity.
  - simpl. intros [=].
Defined.

Lemma add_size_witness :
  exists w',
    Reporter.add (LStr "M") (OInt 6) false session_alias = (Ok tt, w')
    /\ length (graph w') = 2.
Proof.
  eexists. split; [reflexivity|].
  eapply (@add_size (LStr "M") (OInt 6) false session_alias). reflexivity.
Defined.

Lemma scenario_task_witness :
  exists w2 w3,
    @Reporter.get sample_runtime 4 w2 (LStr "my report")
    = Some (Ok (OScenario 1))
    /\ @Reporter.get sample_runtime 4 w3 (LStr "my report")
       = Some (Ok (OScenario 2)).
Proof.
  eexists. eexists.
  eapply (@scenario_task sample_runtime session0 (LStr "my report")
           "identity" (OScenario 1) (OScenario 2) _ _ _);
    try reflexivity.
  intros [=].
Defined.

Lemma disaggregate_attribute_not_callable_witness :
  fst (@Reporter.disaggregate table_runtime (LStr "x:a") "b"
         (OLab (LStr "table")) [] session0)
  = Raise (ValueError (OInt 0)).
Proof.
  eapply (@disaggregate_attribute_not_callable table_runtime); reflexivity.
Defined.

Lemma session_var_ok : graph_ok session_var.
Proof. repeat constructor. Qed.

Lemma failed_disaggregate_string_frame_witness :
  exists e w',
    @Reporter.disaggregate sample_runtime (LStr "x:a") "b"
      (OLab (LStr "nosuch")) [] session_var = (Raise e, w')
    /\ dict_get (w_heap w') (graph w') (LStr "x:a") = Some (OInt 7).
Proof.
  eexists. eexists. split; [reflexivity|].
  eapply (@failed_disaggregate_string_frame sample_runtime session_var
           "x:a" "b" (OLab (LStr "nosuch")) [] _ _ (LStr "x:a")
           session_var_ok eq_refl I).
Defined.

Lemma disaggregate_string_frame_witness :
  exists w',
    @Reporter.disaggregate sample_runtime (LStr "x:a") "b"
      (OLab (LStr "shares")) [] session_var = (Ok tt, w')
    /\ dict_get (w_heap w') (graph w') (LStr "x:a") = Some (OInt 7).
Proof.
  eexists. split; [reflexivity|].
  eapply (@disaggregate_string_frame sample_runtime session_var
           "x:a" "b" (OLab (LStr "shares")) [] _ (LStr "x:a")
           session_var_ok eq_refl I).
  simpl. tauto.
Defined.

Lemma disaggregate_again_same_entry_witness :
  exists w1 w2,
    @Reporter.disaggregate sample_runtime (LStr "x:a") "b"
      (OLab (LStr "shares")) [] session_var = (Ok tt, w1)
    /\ @Reporter.disaggregate sample_runtime (LStr "x:a") "b"
         (OFun "identity") [OLab (LStr "s")] w1 = (Ok tt, w2)
    /\ exists f1 f2,
        @Reporter.resolve_method sample_runtime (OLab (LStr "shares"))
        = Ok (OFun f1)
        /\ @Reporter.resolve_method sample_runtime (OFun "identity")
           = Ok (OFun f2)
        /\ dict_get (w_heap w1) (graph w1) (LKey 0)
           = Some (OTuple [OFun f1; OLab (LStr "x:a")])
        /\ dict_get (w_heap w2) (graph w2) (LKey 0)
           = Some (OTuple [OFun f2; OLab (LStr "x:a"); OLab (LStr "s")])
        /\ dict_get (w_heap w2) (graph w2) (LKey 1)
           = Some (OTuple [OFun f2; OLab (LStr "x:a"); OLab (LStr "s")])
        /\ length (graph w2) = length (graph w1).
Proof.
  eexists. eexists. split; [reflexivity|]. split; [reflexivity|].
  eapply (@disaggregate_again_same_entry sample_runtime session_var
            "x:a" "b" (OLab (LStr "shares")) [] (OFun "identity")
            [OLab (LStr "s")] _ _ session_var_ok eq_refl eq_refl).
Defined.

Lemma disaggregate_then_get_witness :
  exists w',
    @Reporter.disaggregate sample_runtime (LStr "x:a") "b"
      (OFun "identity") [] session_var = (Ok tt, w')
    /\ @Reporter.get sample_runtime 4 w' (LKey 0) = Some (Ok (OInt 7)).
Proof.
  eexists. split; [reflexivity|].
  eapply (@disaggregate_then_get sample_runtime session_var "x:a" "b"
           (OFun "identity") [] "identity" (OInt 7) _
           session_var_ok eq_refl eq_refl eq_refl eq_refl
           (List.Forall_nil _) 0).
Defined.

Lemma disaggregate_key_waits_for_itself_witness :
  exists w',
    @Reporter.disaggregate sample_runtime (LKey 0) "b" (OFun "identity") []
      session_keys = (Ok tt, w')
    /\ forall v, @Reporter.get sample_runtime 5 w' (LKey 0) <> Some (Ok v).
Proof.
  eexists. split; [reflexivity|]. intros v.
  eapply (proj2 (@disaggregate_key_waits_for_itself sample_runtime
                  session_keys 0 "b" (OFun "identity") [] _ eq_refl)).
Defined.

Lemma add_file_paths_apart_witness :
  let w2 := snd (Reporter.add_file "b.csv"
                   (snd (Reporter.add_file "a.csv" session0))) in
  dict_get (w_heap w2) (graph w2) (LStr "file:a.csv")
  = Some (OTuple [OFun "partial(load_file, a.csv)"])
  /\ dict_get (w_heap w2) (graph w2) (LStr "file:b.csv")
     = Some (OTuple [OFun "partial(load_file, b.csv)"]).
Proof.
  apply (add_file_paths_apart session0 "a.csv" "b.csv"). intros [=].
Defined.
